(** * stellar-sep-6: the withdrawal state machine and the withdraw call

    A shallow embedding of [stateMachine] (src/transfer-server.ts) and of
    [withdraw] (src/withdrawal.ts), with the properties their specification
    states about them.

    JavaScript objects are modelled as records whose fields remember whether
    the key exists, because [stateMachine] tests ["details" in state] and
    builds one of its results with an object spread. *)

From stdpp Require Import base strings gmap pretty.

Local Open Scope string_scope.

(** ** JavaScript values the code relies on *)

Module Js.

(** One property of an object: the key does not exist, or it exists and
    holds a value, which may be [undefined] ([None]). *)
Inductive field (A : Type) : Type :=
| Absent
| Present (v : option A).
Global Arguments Absent {A}.
Global Arguments Present {A} v.

(** ["k" in o] *)
Definition has {A} (f : field A) : bool :=
  match f with
  | Absent => false
  | Present _ => true
  end.

(** [o.k]: reading a key that does not exist gives [undefined]. *)
Definition read {A} (f : field A) : option A :=
  match f with
  | Absent => None
  | Present v => v
  end.

(** The outcome of a call: a returned value or [throw Error(msg)]. *)
Inductive outcome (A : Type) : Type :=
| Return (a : A)
| Throw (msg : string).
Global Arguments Return {A} a.
Global Arguments Throw {A} msg.

(** [haystack.includes(needle)]: the needle starts some suffix of the
    haystack. *)
Fixpoint includes (haystack needle : string) : bool :=
  String.prefix needle haystack
  || match haystack with
     | EmptyString => false
     | String _ rest => includes rest needle
     end.

End Js.
Import Js.

(** ** Types declared in other packages and modules

    [Asset] and [Transaction] come from stellar-sdk, [WebauthData] from
    stellar-sep-10 and the response shapes from ./responses.  The state
    machine stores and forwards their values without looking inside, so
    they are parameters of the development. *)

Class Vocabulary : Type := {
  Asset : Type;
  (** [WebauthData & { transaction: Transaction }] *)
  WebauthChallenge : Type;
  KYCInteractiveResponse : Type;
  (** [KYCStatusResponse<"pending">] *)
  KYCPendingResponse : Type;
  (** [KYCStatusResponse<"denied">] *)
  KYCDeniedResponse : Type;
  WithdrawalSuccessResponse : Type;
}.

(** ** transfer-server.ts: the transfer server handle *)

Record TransferOptions : Type := {
  lang : option string;
  walletName : option string;
  walletURL : option string;
}.

(** The object returned by [TransferServer(serverURL, options)], reduced to
    its two getters; its methods are calls to the anchor. *)
Record TransferServer : Type := {
  url : string;
  options : TransferOptions;
}.

Section Machine.
Context {V : Vocabulary}.

(** [Partial<GeneralWithdrawalDetails>]: every member optional.
    [GeneralWithdrawalDetails] itself is the case where all four are
    there, see [fully_populated]. *)
Record Details : Type := {
  asset : option Asset;
  withdrawalFormValues : option (gmap string string);
  method : option string;
  transferServer : option TransferServer;
}.

Definition fully_populated (d : Details) : bool :=
  bool_decide (is_Some (asset d))
  && bool_decide (is_Some (withdrawalFormValues d))
  && bool_decide (is_Some (method d))
  && bool_decide (is_Some (transferServer d)).

(** The string literals of [State["step"]]. *)
Inductive Step : Type :=
| initial
| before_webauth
| after_webauth
| before_interactive_kyc
| pending_kyc
| after_denied_kyc
| after_successful_kyc
| after_tx_submission.

Global Instance Step_eq_dec : EqDecision Step.
Proof. solve_decision. Defined.

Definition step_name (s : Step) : string :=
  match s with
  | initial => "initial"
  | before_webauth => "before-webauth"
  | after_webauth => "after-webauth"
  | before_interactive_kyc => "before-interactive-kyc"
  | pending_kyc => "pending-kyc"
  | after_denied_kyc => "after-denied-kyc"
  | after_successful_kyc => "after-successful-kyc"
  | after_tx_submission => "after-tx-submission"
  end.

(** A state object at run time: its [step] and every other key one of the
    eight interfaces declares.  The interfaces say which keys a given step
    needs ([State_ok] below); the object itself may hold more, as the
    result of a spread does. *)
Record State : Type := {
  step : Step;
  details : field Details;
  webauth : field WebauthChallenge;
  authToken : field string;
  kyc : field KYCInteractiveResponse;
  kycStatus : field KYCPendingResponse;
  rejection : field KYCDeniedResponse;
  withdrawal : field WithdrawalSuccessResponse;
}.

(** [{ step: s }] and nothing else. *)
Definition only_step (s : Step) : State :=
  {| step := s; details := Absent; webauth := Absent; authToken := Absent;
     kyc := Absent; kycStatus := Absent; rejection := Absent;
     withdrawal := Absent |}.

(** The [Action] union, one constructor per [type] tag, with the members
    the action creators put in. *)
Inductive Action : Type :=
| BackToStart
| SaveInitForm (a_asset : Asset) (a_formValues : gmap string string)
    (a_method : string) (a_transferServer : TransferServer)
    (a_webauth : option WebauthChallenge)
| SetAuthToken (token : option string)
| StartInteractiveKYC (response : KYCInteractiveResponse)
| KYCPending (response : KYCPendingResponse)
| KYCDenied (response : KYCDeniedResponse)
| KYCSuccessful (response : WithdrawalSuccessResponse)
| AfterTxSubmission.

(** [action.type] *)
Definition type (a : Action) : string :=
  match a with
  | BackToStart => "back-to-start"
  | SaveInitForm _ _ _ _ _ => "save-init-form"
  | SetAuthToken _ => "set-auth-token"
  | StartInteractiveKYC _ => "start-interactive-kyc"
  | KYCPending _ => "kyc-pending"
  | KYCDenied _ => "kyc-denied"
  | KYCSuccessful _ => "kyc-successful"
  | AfterTxSubmission => "after-tx-submission"
  end.

(** The action creators, with the argument order of the source. *)
Definition backToStart : Action := BackToStart.
Definition saveInitFormData (ts : TransferServer) (a : Asset) (m : string)
    (formValues : gmap string string) (w : option WebauthChallenge) : Action :=
  SaveInitForm a formValues m ts w.
Definition setAuthToken (token : option string) : Action := SetAuthToken token.
Definition startInteractiveKYC (r : KYCInteractiveResponse) : Action :=
  StartInteractiveKYC r.
Definition pendingKYC (r : KYCPendingResponse) : Action := KYCPending r.
Definition failedKYC (r : KYCDeniedResponse) : Action := KYCDenied r.
Definition successfulKYC (r : WithdrawalSuccessResponse) : Action :=
  KYCSuccessful r.
Definition transactionSubmitted : Action := AfterTxSubmission.

Definition initialState : State := only_step initial.

(** The details object both branches of "save-init-form" build. *)
Definition form_details (a : Asset) (formValues : gmap string string)
    (m : string) (ts : TransferServer) : Details :=
  {| asset := Some a; withdrawalFormValues := Some formValues;
     method := Some m; transferServer := Some ts |}.

(** The guard of the four KYC cases:
    [!("details" in state) || state.step === "initial"]. *)
Definition no_details_or_initial (state : State) : bool :=
  negb (has (details state)) || bool_decide (step state = initial).

Definition cannot_perform (action : Action) (state : State) : string :=
  "Cannot perform " +:+ type action +:+ " in state "
    +:+ step_name (step state) +:+ ".".

(** [stateMachine(state, action)].  The [default] case of the switch is
    not reachable from a value of [Action]. *)
Definition stateMachine (state : State) (action : Action) : outcome State :=
  match action with
  | BackToStart =>
      Return
        {| step := initial;
           details := Present (if has (details state)
                               then read (details state) else None);
           webauth := Absent; authToken := Absent; kyc := Absent;
           kycStatus := Absent; rejection := Absent; withdrawal := Absent |}
  | SaveInitForm a formValues m ts w =>
      match w with
      | Some challenge =>
          Return
            {| step := before_webauth;
               details := Present (Some (form_details a formValues m ts));
               webauth := Present (Some challenge);
               authToken := Absent; kyc := Absent; kycStatus := Absent;
               rejection := Absent; withdrawal := Absent |}
      | None =>
          Return
            {| step := after_webauth;
               authToken := Present None;
               details := Present (Some (form_details a formValues m ts));
               webauth := Absent; kyc := Absent; kycStatus := Absent;
               rejection := Absent; withdrawal := Absent |}
      end
  | SetAuthToken token =>
      if bool_decide (step state ≠ before_webauth)
      then Throw "Cannot set auth token at this time."
      else
        Return
          {| step := after_webauth;
             authToken := Present token;
             details := details state;
             webauth := webauth state;
             kyc := kyc state;
             kycStatus := kycStatus state;
             rejection := rejection state;
             withdrawal := withdrawal state |}
  | StartInteractiveKYC response =>
      if no_details_or_initial state
      then Throw (cannot_perform action state)
      else
        Return
          {| step := before_interactive_kyc;
             details := Present (read (details state));
             kyc := Present (Some response);
             webauth := Absent; authToken := Absent; kycStatus := Absent;
             rejection := Absent; withdrawal := Absent |}
  | KYCPending response =>
      if no_details_or_initial state
      then Throw (cannot_perform action state)
      else
        Return
          {| step := pending_kyc;
             details := Present (read (details state));
             kycStatus := Present (Some response);
             webauth := Absent; authToken := Absent; kyc := Absent;
             rejection := Absent; withdrawal := Absent |}
  | KYCDenied response =>
      if no_details_or_initial state
      then Throw (cannot_perform action state)
      else
        Return
          {| step := after_denied_kyc;
             details := Present (read (details state));
             rejection := Present (Some response);
             webauth := Absent; authToken := Absent; kyc := Absent;
             kycStatus := Absent; withdrawal := Absent |}
  | KYCSuccessful response =>
      if no_details_or_initial state
      then Throw (cannot_perform action state)
      else
        Return
          {| step := after_successful_kyc;
             details := Present (read (details state));
             withdrawal := Present (Some response);
             webauth := Absent; authToken := Absent; kyc := Absent;
             kycStatus := Absent; rejection := Absent |}
  | AfterTxSubmission => Return (only_step after_tx_submission)
  end.

(** *** Which objects are values of the [State] union

    A required member is a key that exists and holds a value; for
    [details] outside "initial" the value is a whole
    [GeneralWithdrawalDetails].  Optional members ([details?] of
    "initial", [webauth?], [authToken?]) are not constrained, and
    neither are further keys: TypeScript types are structural. *)

Definition given {A} (f : field A) : bool :=
  match f with
  | Present (Some _) => true
  | _ => false
  end.

Definition populated (f : field Details) : bool :=
  match f with
  | Present (Some d) => fully_populated d
  | _ => false
  end.

Definition State_ok (s : State) : bool :=
  match step s with
  | initial => true
  | before_webauth => populated (details s)
  | after_webauth => populated (details s)
  | before_interactive_kyc => populated (details s) && given (kyc s)
  | pending_kyc => populated (details s) && given (kycStatus s)
  | after_denied_kyc => populated (details s) && given (rejection s)
  | after_successful_kyc => populated (details s) && given (withdrawal s)
  | after_tx_submission => true
  end.

(** The six steps whose interface declares [details] as required. *)
Definition detail_bearing (s : Step) : bool :=
  match s with
  | initial | after_tx_submission => false
  | _ => true
  end.

(** The four actions guarded by [no_details_or_initial]. *)
Definition requires_details (a : Action) : bool :=
  match a with
  | StartInteractiveKYC _ | KYCPending _ | KYCDenied _ | KYCSuccessful _ => true
  | _ => false
  end.

(** States the caller can hold: it starts from [initialState] and feeds
    every returned state back in. *)
Inductive reachable : State → Prop :=
| reachable_initial : reachable initialState
| reachable_next (s s' : State) (a : Action) :
    reachable s → stateMachine s a = Return s' → reachable s'.

(** The invariant behind the reducer's return type: a reachable state
    has the keys its step requires, and the final state holds no
    [details] key at all. *)
Definition well_formed (S : State) : Prop :=
  State_ok S = true
  ∧ (step S = after_tx_submission → details S = Absent).

(** Running a list of actions, stopping at the first throw. *)
Fixpoint run (s : State) (actions : list Action) : outcome State :=
  match actions with
  | [] => Return s
  | a :: rest =>
      match stateMachine s a with
      | Return s' => run s' rest
      | Throw msg => Throw msg
      end
  end.

End Machine.

(** ** withdrawal.ts: the withdraw call *)

(** What the code needs from the JavaScript run time to handle
    [response.data], which is typed [any]. *)
Class JsRuntime : Type := {
  JsAny : Type;
  (** ToBoolean, as applied by [if] and [&&] *)
  truthy : JsAny → bool;
  (** [v.k] *)
  member : JsAny → string → JsAny;
  (** ToString, as applied by a template literal *)
  toString : JsAny → string;
}.

(** [a && b]: [a] when it is falsy, otherwise [b]. *)
Definition js_and `{JsRuntime} (a b : JsAny) : JsAny :=
  if truthy a then b else a.

Inductive MemoType : Type := memo_hash | memo_id | memo_text.

Definition memo_type_name (m : MemoType) : string :=
  match m with
  | memo_hash => "hash"
  | memo_id => "id"
  | memo_text => "text"
  end.

Record WithdrawalOptions : Type := {
  account : string;
  dest : string;
  dest_extra : string;
  memo : option string;
  memo_type : option MemoType;
  wallet_name : option string;
  wallet_url : option string;
}.

Inductive WithdrawalType : Type :=
| bankAccount | cash | crypto | mobile | billPayment.

Definition withdrawal_type_value (t : WithdrawalType) : string :=
  match t with
  | bankAccount => "bank_account"
  | cash => "cash"
  | crypto => "crypto"
  | mobile => "mobile"
  | billPayment => "bill_payment"
  end.

Section Withdraw.
Context {J : JsRuntime}.

Record AxiosResponse : Type := {
  status : Z;
  data : JsAny;
}.

Record AxiosConfig : Type := {
  headers : gmap string string;
  params : gmap string string;
  validateStatus : Z → bool;
}.

(** How a promise of a response settles. *)
Inductive Settled : Type :=
| Resolved (response : AxiosResponse)
| Rejected (message : string).

(** [WithdrawalRequestSuccess | WithdrawalRequestKYC]; the constructor
    is the [type] tag. *)
Inductive WithdrawalResult : Type :=
| WithdrawalRequestSuccess (payload : JsAny)
| WithdrawalRequestKYC (payload : JsAny).

Definition result_type (r : WithdrawalResult) : string :=
  match r with
  | WithdrawalRequestSuccess _ => "success"
  | WithdrawalRequestKYC _ => "kyc"
  end.

Definition result_data (r : WithdrawalResult) : JsAny :=
  match r with
  | WithdrawalRequestSuccess d | WithdrawalRequestKYC d => d
  end.

(** How the exchange with the anchor ends for the HTTP client, once every
    redirect has been followed: in a last response, or in none (the anchor
    cannot be reached, the request times out, the redirects do not end),
    with the message of that failure. *)
Inductive Exchange : Type :=
| Answered (response : AxiosResponse)
| Failed (message : string).

(** The anchor as the HTTP client sees it: how a GET of a URL with the
    given headers and query parameters ends. *)
Definition Anchor : Type :=
  string → gmap string string → gmap string string → Exchange.

(** [axios(url, config)] (the axios package).  An exchange without a
    response rejects the promise with that failure.  The last response
    resolves it when [config.validateStatus] accepts its status, and
    otherwise rejects it with axios's own error. *)
Definition axios (anchor : Anchor) (url : string) (config : AxiosConfig)
    : Settled :=
  match anchor url (headers config) (params config) with
  | Failed e => Rejected e
  | Answered response =>
      if validateStatus config (status response) then Resolved response
      else Rejected ("Request failed with status code "
                       +:+ pretty (status response))
  end.

(** [withdraw] is written over any client of that shape, and over
    [joinURL] of ./util. *)
Variable client : string → AxiosConfig → Settled.
Variable joinURL : string → string → string.

Definition set_if_some (k : string) (v : option string)
    (m : gmap string string) : gmap string string :=
  match v with
  | Some x => <[k := x]> m
  | None => m
  end.

(** [{ ...options, type, asset_code: assetCode }] *)
Definition withdraw_params (type assetCode : string)
    (opts : WithdrawalOptions) : gmap string string :=
  <["asset_code" := assetCode]>
    (<["type" := type]>
      (set_if_some "wallet_url" (wallet_url opts)
        (set_if_some "wallet_name" (wallet_name opts)
          (set_if_some "memo_type" (memo_type_name <$> memo_type opts)
            (set_if_some "memo" (memo opts)
              (<["dest_extra" := dest_extra opts]>
                (<["dest" := dest opts]>
                  (<["account" := account opts]> ∅)))))))).

(** [authToken] is [string | null | undefined]; only a non-empty string
    is truthy. *)
Definition withdraw_headers (authToken : option string) : gmap string string :=
  match authToken with
  | Some token =>
      if bool_decide (token = EmptyString) then ∅
      else {[ "Authorization" := "Bearer " +:+ token ]}
  | None => ∅
  end.

Definition withdraw_validateStatus (status : Z) : bool :=
  bool_decide (status = 200%Z) || bool_decide (status = 201%Z)
  || bool_decide (status = 403%Z).

Definition withdraw_config (type assetCode : string)
    (authToken : option string) (opts : WithdrawalOptions) : AxiosConfig :=
  {| headers := withdraw_headers authToken;
     params := withdraw_params type assetCode opts;
     validateStatus := withdraw_validateStatus |}.

Definition anchor_error (response : AxiosResponse) : string :=
  "Anchor responded with status code " +:+ pretty (status response) +:+ ": "
    +:+ toString (member (data response) "message").

Definition unexpected_status (response : AxiosResponse) : string :=
  "Anchor responded with unexpected status code: "
    +:+ pretty (status response).

(** [withdraw(transferServer, type, assetCode, authToken, options)],
    with [client] for [axios]; awaiting a rejected promise rethrows its
    error.  The [withdraw] method of the earlier [TransferServer] object
    has the same body, with [serverURL] for [transferServer.url]. *)
Definition withdraw (ts : TransferServer) (type assetCode : string)
    (authToken : option string) (opts : WithdrawalOptions)
    : outcome WithdrawalResult :=
  let url := joinURL (url ts) "/withdraw" in
  match client url (withdraw_config type assetCode authToken opts) with
  | Rejected e => Throw e
  | Resolved response =>
      if bool_decide (status response = 200%Z) then
        Return (WithdrawalRequestSuccess (data response))
      else if bool_decide (status response = 403%Z) then
        Return (WithdrawalRequestKYC (data response))
      else if truthy (js_and (data response)
                             (member (data response) "message")) then
        Throw (anchor_error response)
      else
        Throw (unexpected_status response)
  end.

End Withdraw.

(** *** Which keys go with which step

    Beside [step] and [details], each interface declares at most one
    more key of its own; [authToken] is declared by "after-webauth" (and
    by "after-successful-kyc", where the reducer never writes it). *)

Section Keys.
Context {V : Vocabulary}.

Definition keys_match_step (s : State) : bool :=
  implb (has (authToken s)) (bool_decide (step s = after_webauth))
  && implb (has (webauth s))
           (bool_decide (step s = before_webauth)
            || bool_decide (step s = after_webauth))
  && implb (has (kyc s)) (bool_decide (step s = before_interactive_kyc))
  && implb (has (kycStatus s)) (bool_decide (step s = pending_kyc))
  && implb (has (rejection s)) (bool_decide (step s = after_denied_kyc))
  && implb (has (withdrawal s)) (bool_decide (step s = after_successful_kyc)).

End Keys.

(** ** transfer-server.ts: the calls of the transfer server handle *)

(** [idType: "transfer" | "stellar" | "external"] *)
Inductive IdType : Type := id_transfer | id_stellar | id_external.

Global Instance IdType_eq_dec : EqDecision IdType.
Proof. solve_decision. Defined.

(** [kind?: "deposit" | "withdrawal"] *)
Inductive TransactionKind : Type := kind_deposit | kind_withdrawal.

Definition kind_name (k : TransactionKind) : string :=
  match k with
  | kind_deposit => "deposit"
  | kind_withdrawal => "withdrawal"
  end.

Section Server.
Context {J : JsRuntime}.

(** [limit] is a JS number, a value of the run time; what is sent is its
    ToString. *)
Record FetchTransactionsOptions : Type := {
  noOlderThan : option string;
  limit : option JsAny;
  kind : option TransactionKind;
  pagingId : option string;
}.

(** The [validateStatus] axios applies when the config has none:
    [status >= 200 && status < 300]. *)
Definition default_validateStatus (status : Z) : bool :=
  bool_decide (200 ≤ status)%Z && bool_decide (status < 300)%Z.

Variable client : string → AxiosConfig → Settled.
Variable joinURL : string → string → string.

(** [fetchInfo()]: [axios(joinURL(serverURL, "/info"))], then
    [response.data]. *)
Definition fetchInfo_config : AxiosConfig :=
  {| headers := ∅; params := ∅; validateStatus := default_validateStatus |}.

Definition fetchInfo (ts : TransferServer) : outcome JsAny :=
  match client (joinURL (url ts) "/info") fetchInfo_config with
  | Rejected e => Throw e
  | Resolved response => Return (data response)
  end.

(** The nested conditional of [fetchTransaction]. *)
Definition idParamName (idType : IdType) : string :=
  match idType with
  | id_stellar => "stellar_transaction_id"
  | id_external => "external_transaction_id"
  | id_transfer => "id"
  end.

(** [{ headers, params: { [idParamName]: id } }]; an omitted [idType] is
    "transfer", and the header is set as in [withdraw]. *)
Definition fetchTransaction_config (id : string) (idType : option IdType)
    (authToken : option string) : AxiosConfig :=
  {| headers := withdraw_headers authToken;
     params := {[ idParamName (default id_transfer idType) := id ]};
     validateStatus := default_validateStatus |}.

Definition fetchTransaction (ts : TransferServer) (id : string)
    (idType : option IdType) (authToken : option string) : outcome JsAny :=
  match client (joinURL (url ts) "/transaction")
               (fetchTransaction_config id idType authToken) with
  | Rejected e => Throw e
  | Resolved response => Return (data response)
  end.

(** The query of [fetchTransactions]; a member that is [undefined] is not
    sent.  An omitted [options] is [{}]. *)
Definition no_filters : FetchTransactionsOptions :=
  {| noOlderThan := None; limit := None; kind := None; pagingId := None |}.

Definition fetchTransactions_params (assetCode : string)
    (opts : FetchTransactionsOptions) : gmap string string :=
  set_if_some "paging_id" (pagingId opts)
    (set_if_some "no_older_than" (noOlderThan opts)
      (set_if_some "limit" (toString <$> limit opts)
        (set_if_some "kind" (kind_name <$> kind opts)
          (<["asset_code" := assetCode]> ∅)))).

Definition fetchTransactions_config (assetCode : string)
    (authToken : option string) (opts : option FetchTransactionsOptions)
    : AxiosConfig :=
  {| headers := withdraw_headers authToken;
     params := fetchTransactions_params assetCode (default no_filters opts);
     validateStatus := default_validateStatus |}.

Definition fetchTransactions (ts : TransferServer) (assetCode : string)
    (authToken : option string) (opts : option FetchTransactionsOptions)
    : outcome JsAny :=
  match client (joinURL (url ts) "/transactions")
               (fetchTransactions_config assetCode authToken opts) with
  | Rejected e => Throw e
  | Resolved response => Return (data response)
  end.

(** [getTransferServerURL(stellarTomlData)]:
    [stellarTomlData.TRANSFER_SERVER || null], with [None] for [null]. *)
Definition getTransferServerURL (stellarTomlData : gmap string JsAny)
    : option JsAny :=
  match stellarTomlData !! "TRANSFER_SERVER" with
  | Some v => if truthy v then Some v else None
  | None => None
  end.

(** [locateTransferServer(domain, options)], over
    [StellarTomlResolver.resolve] of stellar-sdk. *)
Definition locateTransferServer {ResolveOptions : Type}
    (resolve : string → option ResolveOptions → outcome (gmap string JsAny))
    (domain : string) (options : option ResolveOptions)
    : outcome (option JsAny) :=
  match resolve domain options with
  | Throw e => Throw e
  | Return stellarTomlData => Return (getTransferServerURL stellarTomlData)
  end.

End Server.

(** ** The earlier [TransferServer(serverURL)], with [withdraw] as a method *)

Module Legacy.

(** Its [WithdrawalOptions] has no wallet members. *)
Record WithdrawalOptions : Type := {
  account : string;
  dest : string;
  dest_extra : string;
  memo : option string;
  memo_type : option MemoType;
}.

Section Methods.
Context {J : JsRuntime}.
Variable client : string → AxiosConfig → Settled.
Variable joinURL : string → string → string.

Definition fetchInfo (serverURL : string) : outcome JsAny :=
  match client (joinURL serverURL "/info") fetchInfo_config with
  | Rejected e => Throw e
  | Resolved response => Return (data response)
  end.

(** [{ ...options, type, asset_code: assetCode }] *)
Definition withdraw_params (type assetCode : string)
    (opts : WithdrawalOptions) : gmap string string :=
  <["asset_code" := assetCode]>
    (<["type" := type]>
      (set_if_some "memo_type" (memo_type_name <$> memo_type opts)
        (set_if_some "memo" (memo opts)
          (<["dest_extra" := dest_extra opts]>
            (<["dest" := dest opts]>
              (<["account" := account opts]> ∅)))))).

Definition withdraw (serverURL : string) (type assetCode : string)
    (authToken : option string) (opts : WithdrawalOptions)
    : outcome WithdrawalResult :=
  let url := joinURL serverURL "/withdraw" in
  match client url
          {| headers := withdraw_headers authToken;
             params := withdraw_params type assetCode opts;
             validateStatus := withdraw_validateStatus |} with
  | Rejected e => Throw e
  | Resolved response =>
      if bool_decide (status response = 200%Z) then
        Return (WithdrawalRequestSuccess (data response))
      else if bool_decide (status response = 403%Z) then
        Return (WithdrawalRequestKYC (data response))
      else if truthy (js_and (data response)
                             (member (data response) "message")) then
        Throw ("Anchor responded with status code "
                 +:+ pretty (status response) +:+ ": "
                 +:+ toString (member (data response) "message"))
      else
        Throw ("Anchor responded with unexpected status code: "
                 +:+ pretty (status response))
  end.

End Methods.

End Legacy.

(** The options of the earlier method, as options of [withdraw]. *)
Definition with_no_wallet (opts : Legacy.WithdrawalOptions) : WithdrawalOptions :=
  {| account := Legacy.account opts; dest := Legacy.dest opts;
     dest_extra := Legacy.dest_extra opts; memo := Legacy.memo opts;
     memo_type := Legacy.memo_type opts;
     wallet_name := None; wallet_url := None |}.

(** ** Concrete instances, to run the definitions on *)

Module Demo.

(** Assets by code, challenges and responses by an identifier. *)
Definition vocabulary : Vocabulary :=
  {| Asset := string;
     WebauthChallenge := string;
     KYCInteractiveResponse := string;
     KYCPendingResponse := string;
     KYCDeniedResponse := string;
     WithdrawalSuccessResponse := string |}.
#[local] Existing Instance vocabulary.

Definition eurt : Asset := "EURT".
Definition challenge : WebauthChallenge := "challenge-1".
Definition interactive : KYCInteractiveResponse := "interactive-1".
Definition pending : KYCPendingResponse := "pending-1".
Definition denied : KYCDeniedResponse := "denied-1".
Definition payout : WithdrawalSuccessResponse := "withdrawal-1".

Definition server : TransferServer :=
  {| url := "https://anchor.example/transfer";
     options := {| lang := None; walletName := None; walletURL := None |} |}.

Definition form : gmap string string := {[ "dest" := "DE89370400440532013000" ]}.

Definition full_details : Details :=
  form_details eurt form "bank_account" server.

(** Only the asset chosen so far. *)
Definition partial_details : Details :=
  {| asset := Some eurt; withdrawalFormValues := None;
     method := None; transferServer := None |}.

Definition initial_with_partial : State :=
  {| step := initial; details := Present (Some partial_details);
     webauth := Absent; authToken := Absent; kyc := Absent;
     kycStatus := Absent; rejection := Absent; withdrawal := Absent |}.

Definition awaiting_webauth : State :=
  {| step := before_webauth; details := Present (Some full_details);
     webauth := Present (Some challenge); authToken := Absent;
     kyc := Absent; kycStatus := Absent; rejection := Absent;
     withdrawal := Absent |}.

Definition authenticated : State :=
  {| step := after_webauth; details := Present (Some full_details);
     webauth := Absent; authToken := Present None; kyc := Absent;
     kycStatus := Absent; rejection := Absent; withdrawal := Absent |}.

Definition in_review : State :=
  {| step := pending_kyc; details := Present (Some full_details);
     webauth := Absent; authToken := Absent; kyc := Absent;
     kycStatus := Present (Some pending); rejection := Absent;
     withdrawal := Absent |}.

(** A fragment of the values [response.data] can hold. *)
#[warnings="-register-all"]
Inductive Json : Type :=
| JUndefined
| JNull
| JBool (b : bool)
| JStr (s : string)
| JObj (members : list (string * Json)).

Definition json_truthy (v : Json) : bool :=
  match v with
  | JUndefined | JNull => false
  | JBool b => b
  | JStr s => negb (bool_decide (s = EmptyString))
  | JObj _ => true
  end.

Fixpoint lookup_member (members : list (string * Json)) (k : string) : Json :=
  match members with
  | [] => JUndefined
  | (k', v) :: rest => if bool_decide (k' = k) then v else lookup_member rest k
  end.

Definition json_member (v : Json) (k : string) : Json :=
  match v with
  | JObj members => lookup_member members k
  | _ => JUndefined
  end.

Definition json_toString (v : Json) : string :=
  match v with
  | JUndefined => "undefined"
  | JNull => "null"
  | JBool true => "true"
  | JBool false => "false"
  | JStr s => s
  | JObj _ => "[object Object]"
  end.

Definition runtime : JsRuntime :=
  {| JsAny := Json; truthy := json_truthy; member := json_member;
     toString := json_toString |}.
#[local] Existing Instance runtime.

(** An anchor that answers every request with the same response. *)
Definition answering (r : AxiosResponse) : Anchor := λ _ _ _, Answered r.

(** An anchor that cannot be reached. *)
Definition unreachable : Anchor := λ _ _ _, Failed "Network Error".

Definition joinURL (base path : string) : string := base +:+ path.

Definition bank : string := withdrawal_type_value bankAccount.

(** Responses of an anchor: instructions, a KYC demand, a status the
    client lets through with and without a message, and a refusal. *)
Definition instructions : AxiosResponse :=
  {| status := 200; data := JObj [("account_id", JStr "GANCHOR")] |}.

Definition kyc_demand : AxiosResponse :=
  {| status := 403;
     data := JObj [("type", JStr "interactive_customer_info_needed")] |}.

Definition created : AxiosResponse :=
  {| status := 201; data := JObj [("id", JStr "82fhs729f63dh0v4")] |}.

Definition created_with_message : AxiosResponse :=
  {| status := 201; data := JObj [("message", JStr "queued")] |}.

Definition maintenance : AxiosResponse :=
  {| status := 503; data := JObj [("message", JStr "down for maintenance")] |}.

Definition request : WithdrawalOptions :=
  {| account := "GABC"; dest := "DE89370400440532013000"; dest_extra := EmptyString;
     memo := None; memo_type := None; wallet_name := None;
     wallet_url := None |}.

(** An "after-webauth" state that holds a token. *)
Definition with_token : State :=
  {| step := after_webauth; details := Present (Some full_details);
     webauth := Present (Some challenge); authToken := Present (Some "tok2");
     kyc := Absent; kycStatus := Absent; rejection := Absent;
     withdrawal := Absent |}.

Definition rejected : State :=
  {| step := after_denied_kyc; details := Present (Some full_details);
     webauth := Absent; authToken := Absent; kyc := Absent;
     kycStatus := Absent; rejection := Present (Some denied);
     withdrawal := Absent |}.

Definition paid_out : State :=
  {| step := after_successful_kyc; details := Present (Some full_details);
     webauth := Absent; authToken := Absent; kyc := Absent;
     kycStatus := Absent; rejection := Absent;
     withdrawal := Present (Some payout) |}.

Definition legacy_request : Legacy.WithdrawalOptions :=
  {| Legacy.account := "GABC"; Legacy.dest := "DE89370400440532013000";
     Legacy.dest_extra := EmptyString; Legacy.memo := Some "42";
     Legacy.memo_type := Some memo_id |}.

(** A stellar.toml that names the transfer server, and one whose entry is
    empty. *)
Definition toml : gmap string Json :=
  {[ "TRANSFER_SERVER" := JStr "https://anchor.example/transfer";
     "WEB_AUTH_ENDPOINT" := JStr "https://anchor.example/auth" ]}.

Definition toml_with_empty_entry : gmap string Json :=
  {[ "TRANSFER_SERVER" := JStr EmptyString ]}.

(** A resolver that knows one domain. *)
Definition resolve (domain : string) (_ : option unit)
    : outcome (gmap string Json) :=
  if bool_decide (domain = "anchor.example") then Return toml
  else Throw "getaddrinfo ENOTFOUND".

Definition transaction_found : AxiosResponse :=
  {| status := 200; data := JObj [("transaction", JObj [("id", JStr "82fhs")])] |}.

Definition filters : FetchTransactionsOptions :=
  {| noOlderThan := Some "2019-06-01T00:00:00Z"; limit := None;
     kind := Some kind_withdrawal;
     pagingId := None |}.

End Demo.

(** ** Properties of the state machine *)

Section MachineFacts.
Context {V : Vocabulary}.

Implicit Types (S : State) (a : Action).

Lemma populated_has (f : field Details) : populated f = true → has f = true.
Proof. destruct f as [|[d|]]; simpl; congruence. Qed.

Lemma populated_read (f : field Details) :
  populated f = true → ∃ d, f = Present (Some d) ∧ fully_populated d = true.
Proof. destruct f as [|[d|]]; simpl; try congruence. eauto. Qed.

Lemma form_details_populated x fv m ts :
  fully_populated (form_details x fv m ts) = true.
Proof.
  unfold fully_populated, form_details; simpl.
  repeat (rewrite bool_decide_eq_true_2 by eauto); reflexivity.
Qed.

(** A state whose interface requires [details] passes the guard of the
    KYC cases. *)
Lemma guard_passes S :
  State_ok S = true → detail_bearing (step S) = true →
  no_details_or_initial S = false.
Proof.
  unfold State_ok, no_details_or_initial. intros Hok Hstep.
  assert (populated (details S) = true) as Hp.
  { destruct (step S); simpl in *; try congruence;
      repeat (apply andb_prop in Hok as [Hok ?]); assumption. }
  rewrite (populated_has _ Hp); simpl.
  apply bool_decide_eq_false_2. intros E. rewrite E in Hstep. discriminate.
Qed.

(** What the four KYC cases return: the step and one payload key differ,
    [details] is always [state.details]. *)
Lemma kyc_action_returns S a :
  requires_details a = true → no_details_or_initial S = false →
  ∃ S', stateMachine S a = Return S'
        ∧ details S' = Present (read (details S))
        ∧ detail_bearing (step S') = true
        ∧ match step S' with
          | before_interactive_kyc => given (kyc S') = true
          | pending_kyc => given (kycStatus S') = true
          | after_denied_kyc => given (rejection S') = true
          | after_successful_kyc => given (withdrawal S') = true
          | _ => False
          end.
Proof.
  intros Ha Hg. destruct a; try discriminate Ha; simpl; rewrite Hg;
    eexists; (split; [reflexivity|]); simpl; auto.
Qed.

Lemma kyc_action_throws S a :
  requires_details a = true → no_details_or_initial S = true →
  stateMachine S a = Throw (cannot_perform a S).
Proof.
  intros Ha Hg. destruct a; try discriminate Ha; simpl; rewrite Hg; reflexivity.
Qed.

Lemma well_formed_initial : well_formed initialState.
Proof. split; [reflexivity | discriminate]. Qed.

Lemma well_formed_guard S :
  well_formed S → no_details_or_initial S = false →
  populated (details S) = true.
Proof.
  intros [Hok Hfin] Hg. unfold no_details_or_initial in Hg.
  apply orb_false_elim in Hg as [Hh Hi].
  apply bool_decide_eq_false_1 in Hi.
  unfold State_ok in Hok.
  destruct (step S) eqn:Es; try congruence;
    try (apply andb_prop in Hok as [Hok _]); try assumption.
  rewrite (Hfin eq_refl) in Hh. discriminate.
Qed.

Lemma well_formed_kyc S a S' :
  requires_details a = true →
  well_formed S → stateMachine S a = Return S' → well_formed S'.
Proof.
  intros Ha HS Hstep.
  destruct (no_details_or_initial S) eqn:Hg.
  { rewrite kyc_action_throws in Hstep by assumption. discriminate. }
  destruct (kyc_action_returns S a Ha Hg) as (S1 & E & Hd & Hb & Hk).
  rewrite E in Hstep. injection Hstep as <-.
  destruct (populated_read _ (well_formed_guard S HS Hg)) as (d & Ed & Hfull).
  split.
  - unfold State_ok. rewrite Hd, Ed. simpl.
    destruct (step S1); try contradiction; rewrite Hfull, Hk; reflexivity.
  - intros Es1. rewrite Es1 in Hb. discriminate.
Qed.

Lemma well_formed_next S a S' :
  well_formed S → stateMachine S a = Return S' → well_formed S'.
Proof.
  intros HS Hstep.
  destruct (requires_details a) eqn:Ha; [eauto using well_formed_kyc|].
  destruct HS as [Hok Hfin].
  destruct a as [| x fv m ts [c|] | t | r | r | r | r |];
    try discriminate Ha; simpl in Hstep.
  - (* back-to-start *)
    injection Hstep as <-. split; [reflexivity | discriminate].
  - (* save-init-form, with a challenge *)
    injection Hstep as <-. split; [|discriminate].
    unfold State_ok; simpl. apply form_details_populated.
  - (* save-init-form, without *)
    injection Hstep as <-. split; [|discriminate].
    unfold State_ok; simpl. apply form_details_populated.
  - (* set-auth-token *)
    case_bool_decide as Hs; [discriminate|].
    injection Hstep as <-. split; [|discriminate].
    assert (step S = before_webauth) as E
      by (destruct (decide (step S = before_webauth)); tauto).
    unfold State_ok in *; simpl. rewrite E in Hok. exact Hok.
  - (* after-tx-submission *)
    injection Hstep as <-. split; reflexivity.
Qed.

Lemma reachable_well_formed S : reachable S → well_formed S.
Proof.
  induction 1 as [| s s' a _ IH Hstep];
    eauto using well_formed_initial, well_formed_next.
Qed.

(** "back-to-start" always writes the [details] key, with value
    [undefined] when the state had none. *)
Lemma back_to_start_returns S :
  stateMachine S backToStart =
    Return {| step := initial; details := Present (read (details S));
              webauth := Absent; authToken := Absent; kyc := Absent;
              kycStatus := Absent; rejection := Absent;
              withdrawal := Absent |}.
Proof. simpl. destruct (details S); reflexivity. Qed.

(** C1. "set-auth-token" with token [t], applied to a "before-webauth"
    state, returns an "after-webauth" state whose [authToken] is [t] and
    whose [details] are those of the state it was applied to; applied to
    a state of any other step it throws the illegal-transition error
    "Cannot set auth token at this time." *)
Theorem set_auth_token_transition S (t : option string) :
  if bool_decide (step S = before_webauth)
  then ∃ S', stateMachine S (setAuthToken t) = Return S'
             ∧ step S' = after_webauth
             ∧ authToken S' = Present t
             ∧ details S' = details S
  else stateMachine S (setAuthToken t)
       = Throw "Cannot set auth token at this time.".
Proof.
  simpl. case_bool_decide as Hs.
  - rewrite bool_decide_eq_false_2 by tauto. eauto.
  - rewrite bool_decide_eq_true_2 by assumption. reflexivity.
Qed.

(** C2. Every state reachable from [initialState] through returned
    transitions, unless its step is "initial" or "after-tx-submission",
    holds a [details] value with asset, form values, method and transfer
    server all there; and on a reachable state without such a value the
    four actions that need details throw instead of returning a state. *)
Theorem reachable_states_carry_details S (HS : reachable S) :
  (step S ≠ initial → step S ≠ after_tx_submission →
     ∃ d x fv m ts,
       details S = Present (Some d)
       ∧ asset d = Some x ∧ withdrawalFormValues d = Some fv
       ∧ method d = Some m ∧ transferServer d = Some ts)
  ∧ (∀ a, requires_details a = true → populated (details S) = false →
       stateMachine S a = Throw (cannot_perform a S)).
Proof.
  destruct (reachable_well_formed S HS) as [Hok Hfin]. split.
  - intros Hi Hf.
    assert (populated (details S) = true) as Hp.
    { unfold State_ok in Hok.
      destruct (step S); try congruence;
        try (apply andb_prop in Hok as [Hok _]); assumption. }
    destruct (populated_read _ Hp) as (d & Ed & Hfull).
    unfold fully_populated in Hfull.
    repeat (apply andb_prop in Hfull as [Hfull ?]).
    repeat match goal with
           | H : bool_decide (is_Some _) = true |- _ =>
               apply bool_decide_eq_true_1 in H as [? ?]
           end.
    eauto 10.
  - intros a Ha Hnone. apply kyc_action_throws; [assumption|].
    unfold no_details_or_initial, State_ok in *.
    destruct (step S) eqn:Es; simpl;
      try (rewrite orb_true_r; reflexivity);
      try (apply andb_prop in Hok as [Hok _]); try congruence.
    rewrite (Hfin eq_refl). reflexivity.
Qed.

(** C3. "back-to-start" applied to any state returns a state of step
    "initial".  When the state has a [details] key, the result holds the
    same [details]; when it has none, the result holds no details:
    reading them gives [undefined]. *)
Theorem back_to_start_preserves_details S :
  ∃ S', stateMachine S backToStart = Return S'
        ∧ step S' = initial
        ∧ match details S with
          | Present v => details S' = Present v
          | Absent => read (details S') = None
          end.
Proof.
  rewrite back_to_start_returns. eexists. split; [reflexivity|].
  simpl. destruct (details S); auto.
Qed.

(** C4. On an "initial" state, with or without partial details, each of
    "start-interactive-kyc", "kyc-pending", "kyc-denied" and
    "kyc-successful" throws the illegal-transition error and returns no
    state. *)
Theorem kyc_actions_illegal_from_initial S a
    (Hinitial : step S = initial) (Ha : requires_details a = true) :
  stateMachine S a
  = Throw ("Cannot perform " +:+ type a +:+ " in state initial.").
Proof.
  rewrite kyc_action_throws; [|assumption|].
  - unfold cannot_perform. rewrite Hinitial. reflexivity.
  - unfold no_details_or_initial. rewrite Hinitial. apply orb_true_r.
Qed.

(** C5. "save-init-form" returns, from any state, a state whose
    [details] are assembled from the action (asset, form values, method,
    transfer server).  With a challenge in the action the step is
    "before-webauth" and [webauth] is that challenge; without one the
    step is "after-webauth" and there is no auth token.  The state the
    action is applied to has no influence on the result. *)
Theorem save_init_form_transition S ts x m fv (w : option WebauthChallenge) :
  ∃ S', stateMachine S (saveInitFormData ts x m fv w) = Return S'
        ∧ details S'
          = Present (Some {| asset := Some x; withdrawalFormValues := Some fv;
                             method := Some m; transferServer := Some ts |})
        ∧ match w with
          | Some challenge =>
              step S' = before_webauth ∧ webauth S' = Present (Some challenge)
          | None =>
              step S' = after_webauth ∧ read (authToken S') = None
          end
        ∧ ∀ S0, stateMachine S0 (saveInitFormData ts x m fv w) = Return S'.
Proof.
  destruct w as [c|]; simpl; eexists; (split; [reflexivity|]); simpl; auto.
Qed.

(** C6. For a state of the [State] union whose step is one of
    "before-webauth", "after-webauth", "before-interactive-kyc",
    "pending-kyc", "after-denied-kyc", "after-successful-kyc", each of
    the four KYC actions returns a state whose [details] is the very
    [details] of the state it was applied to. *)
Theorem kyc_actions_keep_details S a
    (Hok : State_ok S = true) (Hstep : detail_bearing (step S) = true)
    (Ha : requires_details a = true) :
  ∃ S', stateMachine S a = Return S' ∧ details S' = details S.
Proof.
  pose proof (guard_passes S Hok Hstep) as Hg.
  destruct (kyc_action_returns S a Ha Hg) as (S' & E & Hd & _).
  exists S'. split; [assumption|]. rewrite Hd.
  unfold no_details_or_initial in Hg. apply orb_false_elim in Hg as [Hh _].
  destruct (details S); [discriminate | reflexivity].
Qed.

(** C7. "after-tx-submission" applied to any state returns exactly
    [{ step: "after-tx-submission" }]: whatever keys the state had, the
    result has none of them. *)
Theorem after_tx_submission_drops_everything S :
  ∃ S', stateMachine S transactionSubmitted = Return S'
        ∧ S' = {| step := after_tx_submission; details := Absent;
                  webauth := Absent; authToken := Absent; kyc := Absent;
                  kycStatus := Absent; rejection := Absent;
                  withdrawal := Absent |}
        ∧ has (details S') = false ∧ has (webauth S') = false
        ∧ has (authToken S') = false ∧ has (kyc S') = false
        ∧ has (kycStatus S') = false ∧ has (rejection S') = false
        ∧ has (withdrawal S') = false.
Proof.
  exists (only_step after_tx_submission).
  split; [reflexivity|]. split; [reflexivity|].
  repeat split.
Qed.

(** C9. "back-to-start" is idempotent: applying it to its own result
    returns that result again, so two in a row give the state one
    gives. *)
Theorem back_to_start_idempotent S :
  ∃ S', stateMachine S backToStart = Return S'
        ∧ stateMachine S' backToStart = Return S'
        ∧ run S [backToStart; backToStart] = run S [backToStart].
Proof.
  eexists. split; [apply back_to_start_returns|]. split.
  - rewrite back_to_start_returns. reflexivity.
  - cbn [run]. rewrite back_to_start_returns.
    rewrite back_to_start_returns. reflexivity.
Qed.

(** C10. "set-auth-token" on a "before-webauth" state that holds the
    challenge [C] spreads the state: besides step "after-webauth", the
    token and the state's [details], the result still has [webauth]
    equal to [C]. *)
Theorem set_auth_token_keeps_webauth S (C : WebauthChallenge)
    (t : option string)
    (Hstep : step S = before_webauth)
    (Hchallenge : webauth S = Present (Some C)) :
  ∃ S', stateMachine S (setAuthToken t) = Return S'
        ∧ step S' = after_webauth
        ∧ authToken S' = Present t
        ∧ details S' = details S
        ∧ webauth S' = Present (Some C).
Proof.
  simpl. rewrite bool_decide_eq_false_2 by tauto.
  eexists. split; [reflexivity|]. simpl. auto.
Qed.

End MachineFacts.

(** ** Properties of the withdraw call *)

Lemma append_empty_r (s : string) : s +:+ EmptyString = s.
Proof.
  induction s as [|c s IH]; [reflexivity|].
  exact (f_equal (String c) IH).
Qed.

Lemma append_assoc (s1 s2 s3 : string) :
  (s1 +:+ s2) +:+ s3 = s1 +:+ s2 +:+ s3.
Proof.
  induction s1 as [|c s1 IH]; [reflexivity|].
  exact (f_equal (String c) IH).
Qed.

Lemma append_cons (c : Ascii.ascii) (s rest : string) :
  String c s +:+ rest = String c (s +:+ rest).
Proof. reflexivity. Qed.

Lemma prefix_append (s rest : string) : String.prefix s (s +:+ rest) = true.
Proof.
  induction s as [|c s IH].
  - destruct rest; reflexivity.
  - rewrite append_cons. cbn [String.prefix].
    destruct (Ascii.ascii_dec c c); [exact IH | congruence].
Qed.

Lemma includes_suffix (before needle : string) :
  includes (before +:+ needle) needle = true.
Proof.
  induction before as [|c before IH].
  - change (EmptyString +:+ needle) with needle.
    pose proof (prefix_append needle EmptyString) as Hp.
    rewrite append_empty_r in Hp.
    destruct needle; cbn [includes]; rewrite Hp; reflexivity.
  - rewrite append_cons. cbn [includes]. rewrite IH. apply orb_true_r.
Qed.

Section WithdrawFacts.
Context {J : JsRuntime}.

(** The statuses [validateStatus] accepts. *)
Lemma withdraw_validateStatus_spec (s : Z) :
  withdraw_validateStatus s = true ↔ s = 200%Z ∨ s = 201%Z ∨ s = 403%Z.
Proof.
  unfold withdraw_validateStatus.
  rewrite !orb_true_iff, !bool_decide_eq_true. tauto.
Qed.

Lemma anchor_error_includes_message (response : AxiosResponse) :
  includes (anchor_error response)
           (toString (member (data response) "message")) = true.
Proof.
  unfold anchor_error.
  rewrite <- (append_assoc (pretty (status response)) ": ").
  rewrite <- append_assoc.
  apply includes_suffix.
Qed.

Section AnyClient.
Variable client : string → AxiosConfig → Settled.
Variable joinURL : string → string → string.

(** The branches of [withdraw] on a response the client delivered. *)
Lemma withdraw_resolved ts type assetCode authToken opts response :
  client (joinURL (url ts) "/withdraw")
         (withdraw_config type assetCode authToken opts)
  = Resolved response →
  withdraw client joinURL ts type assetCode authToken opts
  = if bool_decide (status response = 200%Z) then
      Return (WithdrawalRequestSuccess (data response))
    else if bool_decide (status response = 403%Z) then
      Return (WithdrawalRequestKYC (data response))
    else if truthy (js_and (data response)
                           (member (data response) "message")) then
      Throw (anchor_error response)
    else
      Throw (unexpected_status response).
Proof. intros E. unfold withdraw. rewrite E. reflexivity. Qed.

(** A rejection by the client is rethrown as it is. *)
Lemma withdraw_rethrows ts type assetCode authToken opts e :
  client (joinURL (url ts) "/withdraw")
         (withdraw_config type assetCode authToken opts)
  = Rejected e →
  withdraw client joinURL ts type assetCode authToken opts = Throw e.
Proof. intros E. unfold withdraw. rewrite E. reflexivity. Qed.

End AnyClient.

(** How axios settles the request [withdraw] makes. *)
Lemma axios_withdraw_settles (anchor : Anchor) url type assetCode authToken opts :
  axios anchor url (withdraw_config type assetCode authToken opts)
  = match anchor url (withdraw_headers authToken)
                 (withdraw_params type assetCode opts) with
    | Failed e => Rejected e
    | Answered response =>
        if withdraw_validateStatus (status response) then Resolved response
        else Rejected ("Request failed with status code "
                         +:+ pretty (status response))
    end.
Proof. reflexivity. Qed.

(** [withdraw] with axios as the client, by the status of the last
    response.  Of the statuses other than 200 and 403 only 201 passes
    [validateStatus] and reaches the two messages [withdraw] builds; every
    remaining status ends in axios's error. *)
Lemma withdraw_by_last_response (anchor : Anchor)
    (joinURL : string → string → string) (ts : TransferServer)
    (type assetCode : string) (authToken : option string)
    (opts : WithdrawalOptions) (response : AxiosResponse) :
  anchor (joinURL (url ts) "/withdraw") (withdraw_headers authToken)
         (withdraw_params type assetCode opts)
  = Answered response →
  withdraw (axios anchor) joinURL ts type assetCode authToken opts
  = if bool_decide (status response = 200%Z) then
      Return (WithdrawalRequestSuccess (data response))
    else if bool_decide (status response = 403%Z) then
      Return (WithdrawalRequestKYC (data response))
    else if bool_decide (status response = 201%Z) then
      if truthy (js_and (data response) (member (data response) "message"))
      then Throw (anchor_error response)
      else Throw (unexpected_status response)
    else
      Throw ("Request failed with status code " +:+ pretty (status response)).
Proof.
  intros Hanswered.
  pose proof (axios_withdraw_settles anchor (joinURL (url ts) "/withdraw")
                type assetCode authToken opts) as Hsettle.
  rewrite Hanswered in Hsettle.
  destruct (withdraw_validateStatus (status response)) eqn:Hvalid.
  - (* delivered: 200, 201 or 403 *)
    rewrite (withdraw_resolved _ _ _ _ _ _ _ _ Hsettle).
    apply withdraw_validateStatus_spec in Hvalid.
    repeat case_bool_decide; first [reflexivity | tauto].
  - (* rejected by axios *)
    rewrite (withdraw_rethrows _ _ _ _ _ _ _ _ Hsettle).
    assert (¬ (status response = 200%Z ∨ status response = 201%Z
               ∨ status response = 403%Z)) as Hnot.
    { rewrite <- withdraw_validateStatus_spec, Hvalid. discriminate. }
    repeat case_bool_decide; first [reflexivity | tauto].
Qed.

(** An exchange without a response: [withdraw] throws that failure. *)
Lemma withdraw_failed_exchange (anchor : Anchor)
    (joinURL : string → string → string) (ts : TransferServer)
    (type assetCode : string) (authToken : option string)
    (opts : WithdrawalOptions) (e : string) :
  anchor (joinURL (url ts) "/withdraw") (withdraw_headers authToken)
         (withdraw_params type assetCode opts)
  = Failed e →
  withdraw (axios anchor) joinURL ts type assetCode authToken opts = Throw e.
Proof.
  intros Hfailed. apply withdraw_rethrows.
  rewrite axios_withdraw_settles, Hfailed. reflexivity.
Qed.

End WithdrawFacts.

(** ** The theorems at concrete inputs *)

Section Instances.
#[local] Existing Instance Demo.vocabulary.
#[local] Existing Instance Demo.runtime.

Lemma authenticated_reachable : reachable Demo.authenticated.
Proof.
  apply (reachable_next initialState Demo.authenticated
           (saveInitFormData Demo.server Demo.eurt "bank_account" Demo.form None)).
  - apply reachable_initial.
  - reflexivity.
Qed.

(** A submitted form leaves an "after-webauth" state with whole details;
    the start state has none and refuses "kyc-pending". *)
Lemma reachable_states_carry_details_witness :
  reachable Demo.authenticated
  ∧ (∃ d x fv m ts,
       details Demo.authenticated = Present (Some d)
       ∧ asset d = Some x ∧ withdrawalFormValues d = Some fv
       ∧ method d = Some m ∧ transferServer d = Some ts)
  ∧ stateMachine initialState (pendingKYC Demo.pending)
    = Throw "Cannot perform kyc-pending in state initial.".
Proof.
  split; [exact authenticated_reachable|]. split.
  - apply (reachable_states_carry_details Demo.authenticated
             authenticated_reachable); discriminate.
  - apply (proj2 (reachable_states_carry_details initialState
                    reachable_initial) (pendingKYC Demo.pending));
      reflexivity.
Defined.

Lemma kyc_actions_illegal_from_initial_witness :
  step Demo.initial_with_partial = initial
  ∧ requires_details (failedKYC Demo.denied) = true
  ∧ stateMachine Demo.initial_with_partial (failedKYC Demo.denied)
    = Throw "Cannot perform kyc-denied in state initial.".
Proof.
  split; [reflexivity|]. split; [reflexivity|].
  apply (kyc_actions_illegal_from_initial Demo.initial_with_partial
           (failedKYC Demo.denied)); reflexivity.
Defined.

Lemma kyc_actions_keep_details_witness :
  State_ok Demo.in_review = true
  ∧ detail_bearing (step Demo.in_review) = true
  ∧ requires_details (successfulKYC Demo.payout) = true
  ∧ ∃ S', stateMachine Demo.in_review (successfulKYC Demo.payout) = Return S'
          ∧ details S' = details Demo.in_review.
Proof.
  split; [reflexivity|]. split; [reflexivity|]. split; [reflexivity|].
  apply (kyc_actions_keep_details Demo.in_review
           (successfulKYC Demo.payout)); reflexivity.
Defined.

Lemma set_auth_token_keeps_webauth_witness :
  step Demo.awaiting_webauth = before_webauth
  ∧ webauth Demo.awaiting_webauth = Present (Some Demo.challenge)
  ∧ ∃ S', stateMachine Demo.awaiting_webauth (setAuthToken (Some "tok2"))
          = Return S'
          ∧ step S' = after_webauth
          ∧ authToken S' = Present (Some "tok2")
          ∧ details S' = details Demo.awaiting_webauth
          ∧ webauth S' = Present (Some Demo.challenge).
Proof.
  split; [reflexivity|]. split; [reflexivity|].
  apply (set_auth_token_keeps_webauth Demo.awaiting_webauth Demo.challenge
           (Some "tok2")); reflexivity.
Defined.

(** C8.  The anchor refuses with status 503 and the message "down for
    maintenance".  The lines of [withdraw] that would put this message
    into the error are not reached: [validateStatus] does not accept 503,
    axios rejects, and the error [withdraw] throws is axios's, which does
    not include the anchor's message. *)
Lemma withdraw_rejected_status_hides_message :
  let response := Demo.maintenance in
  let result :=
    withdraw (axios (Demo.answering response)) Demo.joinURL
             Demo.server Demo.bank "EURT" None Demo.request in
  status response ≠ 200%Z
  ∧ status response ≠ 403%Z
  ∧ truthy (js_and (data response) (member (data response) "message")) = true
  ∧ toString (member (data response) "message") = "down for maintenance"
  ∧ result = Throw "Request failed with status code 503"
  ∧ ¬ ∃ msg, result = Throw msg
             ∧ includes msg (toString (member (data response) "message"))
               = true.
Proof.
  cbv zeta.
  assert (withdraw (axios (Demo.answering Demo.maintenance)) Demo.joinURL
                   Demo.server Demo.bank "EURT" None Demo.request
          = Throw "Request failed with status code 503") as E
    by (vm_compute; reflexivity).
  repeat split; try discriminate; try reflexivity; try exact E.
  intros (msg & Hthrow & Hinc). rewrite E in Hthrow.
  injection Hthrow as <-. vm_compute in Hinc. discriminate.
Qed.

(** The four outcomes with axios as the client. *)
Example withdraw_instructions :
  withdraw (axios (Demo.answering Demo.instructions)) Demo.joinURL
           Demo.server Demo.bank "EURT" (Some "tok2") Demo.request
  = Return (WithdrawalRequestSuccess (data Demo.instructions)).
Proof. vm_compute. reflexivity. Qed.

Example withdraw_kyc_demand :
  withdraw (axios (Demo.answering Demo.kyc_demand)) Demo.joinURL
           Demo.server Demo.bank "EURT" (Some "tok2") Demo.request
  = Return (WithdrawalRequestKYC (data Demo.kyc_demand)).
Proof. vm_compute. reflexivity. Qed.

Example withdraw_created_with_message :
  withdraw (axios (Demo.answering Demo.created_with_message)) Demo.joinURL
           Demo.server Demo.bank "EURT" None Demo.request
  = Throw "Anchor responded with status code 201: queued".
Proof. vm_compute. reflexivity. Qed.

Example withdraw_created :
  withdraw (axios (Demo.answering Demo.created)) Demo.joinURL
           Demo.server Demo.bank "EURT" (Some "tok2") Demo.request
  = Throw "Anchor responded with unexpected status code: 201".
Proof. vm_compute. reflexivity. Qed.

(** The request [withdraw] sends. *)
Example withdraw_request_headers :
  headers (withdraw_config Demo.bank "EURT" (Some "tok2") Demo.request)
  = {[ "Authorization" := "Bearer tok2" ]}.
Proof. reflexivity. Qed.

(** A whole attempt: form, challenge, token, review, approval,
    submission, and back to a start state without details. *)
Example full_attempt :
  run initialState
      [ saveInitFormData Demo.server Demo.eurt "bank_account" Demo.form
          (Some Demo.challenge);
        setAuthToken (Some "tok2");
        pendingKYC Demo.pending;
        successfulKYC Demo.payout;
        transactionSubmitted;
        backToStart ]
  = Return {| step := initial; details := Present None; webauth := Absent;
              authToken := Absent; kyc := Absent; kycStatus := Absent;
              rejection := Absent; withdrawal := Absent |}.
Proof. reflexivity. Qed.

(** A rejected review: the details of the attempt survive the way back to
    the start. *)
Example rejected_attempt :
  run Demo.authenticated
      [ startInteractiveKYC Demo.interactive;
        pendingKYC Demo.pending;
        failedKYC Demo.denied;
        backToStart ]
  = Return {| step := initial; details := Present (Some Demo.full_details);
              webauth := Absent; authToken := Absent; kyc := Absent;
              kycStatus := Absent; rejection := Absent;
              withdrawal := Absent |}.
Proof. reflexivity. Qed.

(** Without a challenge the form leads straight to "after-webauth", from
    where a token can no longer be set. *)
Example token_after_skipped_webauth :
  run initialState
      [ saveInitFormData Demo.server Demo.eurt "bank_account" Demo.form None;
        setAuthToken (Some "tok1") ]
  = Throw "Cannot set auth token at this time.".
Proof. reflexivity. Qed.

End Instances.

(** ** Further properties of the state machine *)

Section ReducerFacts.
Context {V : Vocabulary}.

Implicit Types (S T : State) (a b : Action).

Lemma run_reachable S (actions : list Action) S' :
  reachable S → run S actions = Return S' → reachable S'.
Proof.
  revert S. induction actions as [|a rest IH]; intros S HS Hrun.
  - injection Hrun as <-. exact HS.
  - cbn [run] in Hrun. destruct (stateMachine S a) as [S1|msg] eqn:E;
      [|discriminate].
    eapply IH; [|exact Hrun]. eapply reachable_next; eassumption.
Qed.

(** X1. Every state the caller can reach from [initialState] is a value of
    the [State] union: the keys its step requires exist and hold values. *)
Theorem reachable_states_conform S (HS : reachable S) : State_ok S = true.
Proof. destruct (reachable_well_formed S HS) as [Hok _]. exact Hok. Qed.

Lemma keys_match_step_next S a S' :
  keys_match_step S = true → stateMachine S a = Return S' →
  keys_match_step S' = true.
Proof.
  intros HS Hstep.
  destruct a as [| x fv m ts [c|] | t | r | r | r | r |]; simpl in Hstep;
    try (injection Hstep as <-; reflexivity);
    try (destruct (no_details_or_initial S); [discriminate|];
         injection Hstep as <-; reflexivity).
  (* set-auth-token: the spread keeps the keys of a "before-webauth" state *)
  case_bool_decide as Hs; [discriminate|]. injection Hstep as <-.
  assert (step S = before_webauth) as E
    by (destruct (decide (step S = before_webauth)); tauto).
  unfold keys_match_step in *. simpl. rewrite E in HS. simpl in HS.
  destruct (has (authToken S)), (has (webauth S)), (has (kyc S)),
    (has (kycStatus S)), (has (rejection S)), (has (withdrawal S));
    simpl in *; congruence.
Qed.

Lemma reachable_keys_match_step S : reachable S → keys_match_step S = true.
Proof.
  induction 1 as [| s s' a _ IH Hstep];
    [reflexivity | eauto using keys_match_step_next].
Qed.

(** X2. In a reachable state every key beside [step] and [details] goes
    with the step that declares it: an auth token only with
    "after-webauth", a challenge only with "before-webauth" or
    "after-webauth", and each KYC payload only with its own step. *)
Theorem reachable_keys_go_with_step S (HS : reachable S) :
  (has (authToken S) = true → step S = after_webauth)
  ∧ (has (webauth S) = true →
       step S = before_webauth ∨ step S = after_webauth)
  ∧ (has (kyc S) = true → step S = before_interactive_kyc)
  ∧ (has (kycStatus S) = true → step S = pending_kyc)
  ∧ (has (rejection S) = true → step S = after_denied_kyc)
  ∧ (has (withdrawal S) = true → step S = after_successful_kyc).
Proof.
  pose proof (reachable_keys_match_step S HS) as H.
  unfold keys_match_step in H.
  repeat (apply andb_prop in H as [H ?]).
  repeat split; intros Hk; rewrite Hk in *; simpl in *;
    repeat case_bool_decide; simpl in *; try discriminate; auto.
Qed.

(** X3. The reducer never produces partial details: in a reachable state
    the details are missing or are the whole record some "save-init-form"
    assembled, also when the step is "initial". *)
Theorem reachable_details_whole_or_none S (HS : reachable S) :
  read (details S) = None
  ∨ ∃ x fv m ts, read (details S) = Some (form_details x fv m ts).
Proof.
  induction HS as [| s s' a _ IH Hstep]; [left; reflexivity|].
  destruct a as [| x fv m ts [c|] | t | r | r | r | r |]; simpl in Hstep;
    try (injection Hstep as <-; simpl; eauto 6; fail);
    try (destruct (no_details_or_initial s); [discriminate|];
         injection Hstep as <-; exact IH).
  - (* back-to-start *)
    injection Hstep as <-. simpl. destruct (details s); simpl in *; auto.
  - (* set-auth-token *)
    case_bool_decide; [discriminate|]. injection Hstep as <-. exact IH.
Qed.

(** X4. When the reducer throws: "set-auth-token" outside
    "before-webauth", and a KYC action on a state without a [details] key
    or of step "initial".  In particular "back-to-start", "save-init-form"
    and "after-tx-submission" never throw. *)
Theorem stateMachine_throws_iff S a :
  (∃ msg, stateMachine S a = Throw msg)
  ↔ ((∃ t, a = SetAuthToken t) ∧ step S ≠ before_webauth)
    ∨ (requires_details a = true
       ∧ (has (details S) = false ∨ step S = initial)).
Proof.
  assert (no_details_or_initial S = true
          ↔ has (details S) = false ∨ step S = initial) as Hguard.
  { unfold no_details_or_initial.
    rewrite orb_true_iff, negb_true_iff, bool_decide_eq_true. tauto. }
  split.
  - intros [msg Hthrow].
    destruct a as [| x fv m ts [c|] | t | r | r | r | r |]; simpl in Hthrow;
      try discriminate;
      try (right; split; [reflexivity|]; apply Hguard;
           destruct (no_details_or_initial S); [reflexivity | discriminate]).
    left. split; [eauto|]. case_bool_decide; [assumption | discriminate].
  - intros [[[t ->] Hs] | [Ha Hg]].
    + simpl. rewrite bool_decide_eq_true_2 by assumption. eauto.
    + apply Hguard in Hg. rewrite (kyc_action_throws S a Ha Hg). eauto.
Qed.

(** X5. A token can be set once: on the state a "set-auth-token" returned,
    a second "set-auth-token" throws. *)
Theorem set_auth_token_not_repeatable S (t u : option string) S'
    (Hfirst : stateMachine S (setAuthToken t) = Return S') :
  stateMachine S' (setAuthToken u)
  = Throw "Cannot set auth token at this time.".
Proof.
  simpl in Hfirst. case_bool_decide; [discriminate|].
  injection Hfirst as <-. reflexivity.
Qed.

(** X6. Once a KYC action has returned, every further KYC action returns
    too and hands on the same [details]: they stay put through the whole
    KYC phase, whatever the state before it was. *)
Theorem kyc_phase_keeps_details S a S' b
    (Ha : requires_details a = true) (Hb : requires_details b = true)
    (Hfirst : stateMachine S a = Return S') :
  ∃ S'', stateMachine S' b = Return S'' ∧ details S'' = details S'.
Proof.
  destruct (no_details_or_initial S) eqn:Hg.
  { rewrite (kyc_action_throws S a Ha Hg) in Hfirst. discriminate. }
  destruct (kyc_action_returns S a Ha Hg) as (S1 & E & Hd & Hbear & _).
  rewrite E in Hfirst. injection Hfirst as <-.
  assert (no_details_or_initial S1 = false) as Hg1.
  { unfold no_details_or_initial. rewrite Hd. simpl.
    apply bool_decide_eq_false_2. intros Ei. rewrite Ei in Hbear.
    discriminate. }
  destruct (kyc_action_returns S1 b Hb Hg1) as (S2 & E2 & Hd2 & _).
  exists S2. split; [exact E2|]. rewrite Hd2, Hd. reflexivity.
Qed.

(** X7. A KYC action does not hand on the auth token or the challenge: the
    state it returns has neither key, also for "kyc-successful", whose
    resulting interface declares [authToken]. *)
Theorem kyc_actions_drop_token S a S'
    (Ha : requires_details a = true)
    (Hstep : stateMachine S a = Return S') :
  has (authToken S') = false ∧ has (webauth S') = false.
Proof.
  destruct a; try discriminate Ha; simpl in Hstep;
    (destruct (no_details_or_initial S); [discriminate|]);
    injection Hstep as <-; split; reflexivity.
Qed.

(** X8. The step of a returned state is decided by the action alone: the
    same action applied to two states cannot lead to two different
    steps. *)
Theorem next_step_by_action S T a S' T'
    (HS : stateMachine S a = Return S') (HT : stateMachine T a = Return T') :
  step S' = step T'.
Proof.
  destruct a as [| x fv m ts [c|] | t | r | r | r | r |];
    simpl in HS, HT;
    try (injection HS as <-; injection HT as <-; reflexivity);
    try (destruct (no_details_or_initial S); [discriminate|];
         destruct (no_details_or_initial T); [discriminate|];
         injection HS as <-; injection HT as <-; reflexivity).
  repeat case_bool_decide; try discriminate.
  injection HS as <-. injection HT as <-. reflexivity.
Qed.

(** X9. The state "after-tx-submission" returns is final for the attempt:
    on it "set-auth-token" and the four KYC actions throw. *)
Theorem after_tx_submission_is_final S S' a
    (Hdone : stateMachine S transactionSubmitted = Return S')
    (Ha : requires_details a = true ∨ ∃ t, a = SetAuthToken t) :
  ∃ msg, stateMachine S' a = Throw msg.
Proof.
  injection Hdone as <-.
  destruct Ha as [Ha | [t ->]].
  - rewrite (kyc_action_throws _ a Ha); [eauto | reflexivity].
  - simpl. eauto.
Qed.

(** X10. A submitted form can be read back: "save-init-form" followed by
    "back-to-start" returns, from any state, an "initial" state whose
    details are the ones just assembled, and without the challenge. *)
Theorem submitted_form_survives_back_to_start S ts x m fv
    (w : option WebauthChallenge) :
  ∃ S', run S [saveInitFormData ts x m fv w; backToStart] = Return S'
        ∧ step S' = initial
        ∧ details S' = Present (Some (form_details x fv m ts))
        ∧ has (webauth S') = false
        ∧ has (authToken S') = false.
Proof.
  destruct w as [c|]; cbn; eexists; (split; [reflexivity|]);
    repeat split.
Qed.

End ReducerFacts.

(** ** Further properties of the calls to the anchor *)

Lemma includes_prefix (haystack needle : string) :
  String.prefix needle haystack = true → includes haystack needle = true.
Proof. intros Hp. destruct haystack; cbn [includes]; rewrite Hp; reflexivity. Qed.

Lemma includes_infix (before needle after : string) :
  includes (before +:+ needle +:+ after) needle = true.
Proof.
  induction before as [|c before IH].
  - change (EmptyString +:+ needle +:+ after) with (needle +:+ after).
    apply includes_prefix, prefix_append.
  - rewrite append_cons. cbn [includes]. rewrite IH. apply orb_true_r.
Qed.

Lemma lookup_set_if_some (k j : string) (v : option string)
    (m : gmap string string) :
  set_if_some k v m !! j
  = if decide (k = j) then (match v with Some x => Some x | None => m !! j end)
    else m !! j.
Proof.
  destruct v as [x|]; simpl.
  - rewrite lookup_insert. reflexivity.
  - case_decide; reflexivity.
Qed.

Section CallFacts.
Context {J : JsRuntime}.

(** X11. With axios as the client, [withdraw] returns a result exactly
    when the exchange ends in a response of status 200 or 403; for every
    other last status, 201 included, and without a response it throws. *)
Theorem withdraw_returns_iff (anchor : Anchor)
    (joinURL : string → string → string) (ts : TransferServer)
    (type assetCode : string) (authToken : option string)
    (opts : WithdrawalOptions) :
  (∃ r, withdraw (axios anchor) joinURL ts type assetCode authToken opts
        = Return r)
  ↔ ∃ response,
      anchor (joinURL (url ts) "/withdraw") (withdraw_headers authToken)
             (withdraw_params type assetCode opts)
      = Answered response
      ∧ (status response = 200%Z ∨ status response = 403%Z).
Proof.
  destruct (anchor (joinURL (url ts) "/withdraw") (withdraw_headers authToken)
                   (withdraw_params type assetCode opts))
    as [response|e] eqn:Hend.
  - rewrite (withdraw_by_last_response _ _ _ _ _ _ _ _ Hend). split.
    + intros [r Hr]. exists response. split; [reflexivity|].
      repeat case_bool_decide; auto; try discriminate.
      destruct (truthy _); discriminate.
    + intros (response' & E & Hs). injection E as <-.
      destruct Hs as [Hs|Hs].
      * rewrite bool_decide_eq_true_2 by assumption. eauto.
      * case_bool_decide; [eauto|].
        rewrite bool_decide_eq_true_2 by assumption. eauto.
  - rewrite (withdraw_failed_exchange _ _ _ _ _ _ _ _ Hend). split.
    + intros [r Hr]. discriminate.
    + intros (response' & E & _). discriminate.
Qed.

(** X12. When the exchange ends in a response and [withdraw], with axios
    as the client, throws, the message of the error names the status of
    that response, in decimal. *)
Theorem withdraw_error_names_status (anchor : Anchor)
    (joinURL : string → string → string) (ts : TransferServer)
    (type assetCode : string) (authToken : option string)
    (opts : WithdrawalOptions) (response : AxiosResponse) (msg : string)
    (Hanswered :
       anchor (joinURL (url ts) "/withdraw") (withdraw_headers authToken)
              (withdraw_params type assetCode opts)
       = Answered response)
    (Hthrow : withdraw (axios anchor) joinURL ts type assetCode authToken opts
              = Throw msg) :
  includes msg (pretty (status response)) = true.
Proof.
  rewrite (withdraw_by_last_response _ _ _ _ _ _ _ _ Hanswered) in Hthrow.
  repeat case_bool_decide; try discriminate.
  - destruct (truthy _); injection Hthrow as <-.
    + apply includes_infix.
    + apply includes_suffix.
  - injection Hthrow as <-. apply includes_suffix.
Qed.

(** X13. The requests carry an [Authorization] header exactly when the
    token is a non-empty string, with value "Bearer " and the token, and
    never any other header; an empty token is sent like no token. *)
Theorem authorization_header_iff (authToken : option string) (k h : string) :
  withdraw_headers authToken !! k = Some h
  ↔ k = "Authorization"
    ∧ ∃ token, authToken = Some token ∧ token ≠ EmptyString
               ∧ h = "Bearer " +:+ token.
Proof.
  unfold withdraw_headers. destruct authToken as [token|].
  - case_bool_decide as He.
    + rewrite lookup_empty. split; [discriminate|].
      intros (_ & t & Et & Hne & _). congruence.
    + rewrite lookup_singleton_Some. split.
      * intros [<- <-]. eauto.
      * intros (-> & t & Et & _ & ->). injection Et as <-. auto.
  - rewrite lookup_empty. split; [discriminate|].
    intros (_ & t & Et & _). discriminate.
Qed.

(** X14. The query of [withdraw] always holds the type, the asset code and
    the three required options as given, and each optional member exactly
    when the caller gave it. *)
Theorem withdraw_params_lookup (type assetCode : string)
    (opts : WithdrawalOptions) :
  let query := withdraw_params type assetCode opts in
  query !! "type" = Some type
  ∧ query !! "asset_code" = Some assetCode
  ∧ query !! "account" = Some (account opts)
  ∧ query !! "dest" = Some (dest opts)
  ∧ query !! "dest_extra" = Some (dest_extra opts)
  ∧ query !! "memo" = memo opts
  ∧ query !! "memo_type" = memo_type_name <$> memo_type opts
  ∧ query !! "wallet_name" = wallet_name opts
  ∧ query !! "wallet_url" = wallet_url opts.
Proof.
  intros query. subst query. unfold withdraw_params.
  repeat split;
    rewrite ?lookup_insert, ?lookup_set_if_some, ?lookup_empty;
    repeat (case_decide; try discriminate; try congruence);
    destruct (memo opts), (memo_type opts), (wallet_name opts),
      (wallet_url opts); reflexivity.
Qed.

End CallFacts.

Section ServerFacts.
Context {J : JsRuntime}.

Lemma idParamName_inj (t t' : IdType) : idParamName t = idParamName t' → t = t'.
Proof. destruct t, t'; simpl; intros E; try reflexivity; discriminate E. Qed.

(** X15. The [withdraw] method of the earlier [TransferServer(serverURL)]
    and the [withdraw] function agree: on a handle with that URL and on
    the same options, without wallet members, they send the same request
    and map the outcome alike.  The two [fetchInfo] agree as well. *)
Theorem legacy_withdraw_agrees (client : string → AxiosConfig → Settled)
    (joinURL : string → string → string) (serverURL : string)
    (o : TransferOptions) (type assetCode : string)
    (authToken : option string) (opts : Legacy.WithdrawalOptions) :
  let ts := {| url := serverURL; options := o |} in
  Legacy.withdraw client joinURL serverURL type assetCode authToken opts
  = withdraw client joinURL ts type assetCode authToken (with_no_wallet opts)
  ∧ Legacy.withdraw_params type assetCode opts
    = withdraw_params type assetCode (with_no_wallet opts)
  ∧ Legacy.fetchInfo client joinURL serverURL = fetchInfo client joinURL ts.
Proof.
  intros ts. split; [|split; reflexivity].
  unfold Legacy.withdraw, withdraw, withdraw_config. simpl.
  change (withdraw_params type assetCode (with_no_wallet opts))
    with (Legacy.withdraw_params type assetCode opts).
  destruct (client _ _) as [response|e]; reflexivity.
Qed.

(** X16. [getTransferServerURL] returns a value exactly when the document
    has a truthy [TRANSFER_SERVER] entry, and then that entry; a missing
    or a falsy entry gives [null]. *)
Theorem getTransferServerURL_spec (stellarTomlData : gmap string JsAny)
    (v : JsAny) :
  getTransferServerURL stellarTomlData = Some v
  ↔ stellarTomlData !! "TRANSFER_SERVER" = Some v ∧ truthy v = true.
Proof.
  unfold getTransferServerURL.
  destruct (stellarTomlData !! "TRANSFER_SERVER") as [w|].
  - destruct (truthy w) eqn:Hw; split.
    + intros E. injection E as <-. auto.
    + intros [E _]. exact E.
    + discriminate.
    + intros [E Hv]. injection E as <-. congruence.
  - split; [discriminate | intros [E _]; discriminate].
Qed.

(** X17. [locateTransferServer] returns a server exactly when the resolver
    delivered a document with a truthy [TRANSFER_SERVER] entry, and it
    throws exactly the resolver's errors. *)
Theorem locateTransferServer_spec {ResolveOptions : Type}
    (resolve : string → option ResolveOptions → outcome (gmap string JsAny))
    (domain : string) (options : option ResolveOptions) :
  (∀ v, locateTransferServer resolve domain options = Return (Some v)
        ↔ ∃ stellarTomlData,
            resolve domain options = Return stellarTomlData
            ∧ stellarTomlData !! "TRANSFER_SERVER" = Some v
            ∧ truthy v = true)
  ∧ (∀ e, locateTransferServer resolve domain options = Throw e
          ↔ resolve domain options = Throw e).
Proof.
  unfold locateTransferServer.
  destruct (resolve domain options) as [toml|e0]; split.
  - intros v. split.
    + intros E. injection E as E. apply getTransferServerURL_spec in E.
      exists toml. tauto.
    + intros (toml' & E & Hl & Hv). injection E as <-.
      f_equal. apply getTransferServerURL_spec. auto.
  - intros e. split; discriminate.
  - intros v. split; [discriminate|]. intros (toml' & E & _). discriminate.
  - intros e. split; intros E; injection E as <-; reflexivity.
Qed.

(** X18. [fetchTransaction] sends the id under one name only, the one of
    the id type ("id" when the type is omitted), and the three names are
    distinct, so the anchor can tell which id it got. *)
Theorem fetchTransaction_sends_one_id (id : string) (idType : option IdType)
    (authToken : option string) (t : IdType) :
  params (fetchTransaction_config id idType authToken) !! idParamName t
  = if decide (default id_transfer idType = t) then Some id else None.
Proof.
  simpl. case_decide as E.
  - rewrite E. apply lookup_singleton_eq.
  - apply lookup_singleton_ne. intros E'. apply E, idParamName_inj, E'.
Qed.

(** X20. The query of [fetchTransactions] always holds the asset code, and
    each filter exactly when the caller gave it, under its snake-case
    name, the limit as the string the run time makes of the number; with
    the options omitted only the asset code is sent. *)
Theorem fetchTransactions_params_lookup (assetCode : string)
    (authToken : option string) (opts : FetchTransactionsOptions) :
  let query := params (fetchTransactions_config assetCode authToken (Some opts)) in
  query !! "asset_code" = Some assetCode
  ∧ query !! "kind" = kind_name <$> kind opts
  ∧ query !! "limit" = toString <$> limit opts
  ∧ query !! "no_older_than" = noOlderThan opts
  ∧ query !! "paging_id" = pagingId opts
  ∧ params (fetchTransactions_config assetCode authToken None)
    = {[ "asset_code" := assetCode ]}.
Proof.
  intros query. subst query. simpl. unfold fetchTransactions_params.
  repeat split;
    rewrite ?lookup_set_if_some, ?lookup_insert, ?lookup_empty;
    repeat (case_decide; try discriminate; try congruence);
    destruct (kind opts), (limit opts), (noOlderThan opts), (pagingId opts);
    reflexivity.
Qed.

End ServerFacts.

(** ** The further properties at concrete inputs *)

Section MoreInstances.
#[local] Existing Instance Demo.vocabulary.
#[local] Existing Instance Demo.runtime.

Lemma with_token_reachable : reachable Demo.with_token.
Proof.
  apply (run_reachable initialState
           [ saveInitFormData Demo.server Demo.eurt "bank_account" Demo.form
               (Some Demo.challenge);
             setAuthToken (Some "tok2") ]).
  - apply reachable_initial.
  - reflexivity.
Qed.

Lemma reachable_states_conform_witness :
  reachable Demo.with_token ∧ State_ok Demo.with_token = true.
Proof.
  split; [exact with_token_reachable|].
  apply (reachable_states_conform Demo.with_token with_token_reachable).
Defined.

Lemma reachable_keys_go_with_step_witness :
  reachable Demo.with_token
  ∧ has (authToken Demo.with_token) = true
  ∧ has (webauth Demo.with_token) = true
  ∧ step Demo.with_token = after_webauth.
Proof.
  split; [exact with_token_reachable|].
  split; [reflexivity|]. split; [reflexivity|].
  apply (reachable_keys_go_with_step Demo.with_token with_token_reachable).
  reflexivity.
Defined.

Lemma reachable_details_whole_or_none_witness :
  reachable Demo.with_token
  ∧ (read (details Demo.with_token) = None
     ∨ ∃ x fv m ts,
         read (details Demo.with_token) = Some (form_details x fv m ts)).
Proof.
  split; [exact with_token_reachable|].
  apply (reachable_details_whole_or_none Demo.with_token with_token_reachable).
Defined.

Lemma set_auth_token_not_repeatable_witness :
  stateMachine Demo.awaiting_webauth (setAuthToken (Some "tok2"))
  = Return Demo.with_token
  ∧ stateMachine Demo.with_token (setAuthToken (Some "tok3"))
    = Throw "Cannot set auth token at this time.".
Proof.
  split; [reflexivity|].
  apply (set_auth_token_not_repeatable Demo.awaiting_webauth (Some "tok2")
           (Some "tok3") Demo.with_token).
  reflexivity.
Defined.

Lemma kyc_phase_keeps_details_witness :
  requires_details (pendingKYC Demo.pending) = true
  ∧ requires_details (failedKYC Demo.denied) = true
  ∧ stateMachine Demo.authenticated (pendingKYC Demo.pending)
    = Return Demo.in_review
  ∧ ∃ S'', stateMachine Demo.in_review (failedKYC Demo.denied) = Return S''
           ∧ details S'' = details Demo.in_review.
Proof.
  split; [reflexivity|]. split; [reflexivity|]. split; [reflexivity|].
  apply (kyc_phase_keeps_details Demo.authenticated (pendingKYC Demo.pending)
           Demo.in_review (failedKYC Demo.denied)); reflexivity.
Defined.

Lemma kyc_actions_drop_token_witness :
  has (authToken Demo.with_token) = true
  ∧ requires_details (successfulKYC Demo.payout) = true
  ∧ stateMachine Demo.with_token (successfulKYC Demo.payout)
    = Return Demo.paid_out
  ∧ has (authToken Demo.paid_out) = false
  ∧ has (webauth Demo.paid_out) = false.
Proof.
  split; [reflexivity|]. split; [reflexivity|]. split; [reflexivity|].
  apply (kyc_actions_drop_token Demo.with_token (successfulKYC Demo.payout)
           Demo.paid_out); reflexivity.
Defined.

Lemma next_step_by_action_witness :
  stateMachine Demo.with_token (failedKYC Demo.denied) = Return Demo.rejected
  ∧ stateMachine Demo.in_review (failedKYC Demo.denied) = Return Demo.rejected
  ∧ step Demo.rejected = step Demo.rejected.
Proof.
  split; [reflexivity|]. split; [reflexivity|].
  apply (next_step_by_action Demo.with_token Demo.in_review
           (failedKYC Demo.denied) Demo.rejected Demo.rejected); reflexivity.
Defined.

Lemma after_tx_submission_is_final_witness :
  stateMachine Demo.in_review transactionSubmitted
  = Return (only_step after_tx_submission)
  ∧ requires_details (pendingKYC Demo.pending) = true
  ∧ ∃ msg, stateMachine (only_step after_tx_submission)
                        (pendingKYC Demo.pending) = Throw msg.
Proof.
  split; [reflexivity|]. split; [reflexivity|].
  apply (after_tx_submission_is_final Demo.in_review
           (only_step after_tx_submission) (pendingKYC Demo.pending));
    [reflexivity | left; reflexivity].
Defined.

Lemma withdraw_error_names_status_witness :
  withdraw (axios (Demo.answering Demo.created_with_message)) Demo.joinURL
           Demo.server Demo.bank "EURT" None Demo.request
  = Throw "Anchor responded with status code 201: queued"
  ∧ includes "Anchor responded with status code 201: queued" (pretty 201%Z)
    = true.
Proof.
  split; [vm_compute; reflexivity|].
  apply (withdraw_error_names_status (Demo.answering Demo.created_with_message)
           Demo.joinURL Demo.server Demo.bank "EURT" None Demo.request
           Demo.created_with_message).
  - reflexivity.
  - vm_compute. reflexivity.
Defined.

(** The calls of the handle, run against one anchor. *)
Example fetchTransaction_found :
  fetchTransaction (axios (Demo.answering Demo.transaction_found))
    Demo.joinURL Demo.server "82fhs" None (Some "tok2")
  = Return (data Demo.transaction_found).
Proof. vm_compute. reflexivity. Qed.

Example fetchTransaction_forbidden :
  fetchTransaction (axios (Demo.answering Demo.kyc_demand))
    Demo.joinURL Demo.server "82fhs" (Some id_stellar) None
  = Throw "Request failed with status code 403".
Proof. vm_compute. reflexivity. Qed.

Example fetchTransactions_query :
  params (fetchTransactions_config "EURT" None (Some Demo.filters))
  = {[ "asset_code" := "EURT"; "kind" := "withdrawal";
       "no_older_than" := "2019-06-01T00:00:00Z" ]}.
Proof. vm_compute. reflexivity. Qed.

Example withdraw_unreachable :
  withdraw (axios Demo.unreachable) Demo.joinURL
           Demo.server Demo.bank "EURT" None Demo.request
  = Throw "Network Error".
Proof. vm_compute. reflexivity. Qed.

Example locate_known_domain :
  locateTransferServer Demo.resolve "anchor.example" None
  = Return (Some (Demo.JStr "https://anchor.example/transfer")).
Proof. vm_compute. reflexivity. Qed.

Example locate_unknown_domain :
  locateTransferServer Demo.resolve "nowhere.example" None
  = Throw "getaddrinfo ENOTFOUND".
Proof. vm_compute. reflexivity. Qed.

Example empty_entry_is_no_server :
  getTransferServerURL Demo.toml_with_empty_entry = None.
Proof. vm_compute. reflexivity. Qed.

Example legacy_withdraw_request :
  Legacy.withdraw_params Demo.bank "EURT" Demo.legacy_request
  = withdraw_params Demo.bank "EURT" (with_no_wallet Demo.legacy_request).
Proof. reflexivity. Qed.

End MoreInstances.
